(** * Error handlers and request-logging middleware

    A shallow embedding of [error-handlers.py] (the exception handlers
    that [register_error_handlers] installs on the application) and of
    [logging-config.py] (the Prometheus metrics and the two logging
    middlewares), followed by the properties of the specification that
    concern them.

    Python code that logs, reads the clock, touches the metrics or raises
    is written in a state-and-exception monad [M] over an explicit
    [World]; the rest is plain functions. *)

From stdpp Require Import gmap strings list fin_maps pretty.
From Stdlib Require Import ZArith.

Open Scope string_scope.
Open Scope list_scope.
Open Scope Z_scope.

Set Warnings "-register-all".

(** ** Python values *)

(** The values that end up in a JSON body, in a keyword argument of a log
    call or in a context variable.  A [dict] keeps its insertion order, so
    it is an association list. *)
Inductive Json : Type :=
| JNone
| JStr (s : string)
| JInt (n : Z)
| JList (items : list Json)
| JDict (items : list (string * Json)).

(** [d.get(key)] on the items of a dict. *)
Fixpoint dict_get (key : string) (items : list (string * Json)) : option Json :=
  match items with
  | [] => None
  | (k, v) :: rest => if decide (k = key) then Some v else dict_get key rest
  end.

(** [list(d.keys())]. *)
Definition dict_keys (items : list (string * Json)) : list string :=
  map fst items.

(** Item access and keys of a value that is expected to be a dict. *)
Definition json_get (key : string) (j : Json) : option Json :=
  match j with
  | JDict items => dict_get key items
  | _ => None
  end.

Definition json_keys (j : Json) : list string :=
  match j with
  | JDict items => dict_keys items
  | _ => []
  end.

(** ** Exceptions *)

(** The exception classes the handlers are registered for, and any other
    class by its qualified name. *)
Inductive ExcClass : Type :=
| StarletteHTTPException
| RequestValidationError
| DatabaseConnectionError
| PostgresError
| AnalysisException
| IllegalArgumentException
| TrinoQueryError
| QueryBuildError
| UnknownDataSourceError
| Exception
| OtherClass (qualname : string).

#[global] Instance ExcClass_eq_dec : EqDecision ExcClass.
Proof. solve_decision. Defined.

Definition ExcClass_code (c : ExcClass) : nat + string :=
  match c with
  | StarletteHTTPException => inl 0%nat
  | RequestValidationError => inl 1%nat
  | DatabaseConnectionError => inl 2%nat
  | PostgresError => inl 3%nat
  | AnalysisException => inl 4%nat
  | IllegalArgumentException => inl 5%nat
  | TrinoQueryError => inl 6%nat
  | QueryBuildError => inl 7%nat
  | UnknownDataSourceError => inl 8%nat
  | Exception => inl 9%nat
  | OtherClass q => inr q
  end.

Definition ExcClass_decode (x : nat + string) : ExcClass :=
  match x with
  | inl 0%nat => StarletteHTTPException
  | inl 1%nat => RequestValidationError
  | inl 2%nat => DatabaseConnectionError
  | inl 3%nat => PostgresError
  | inl 4%nat => AnalysisException
  | inl 5%nat => IllegalArgumentException
  | inl 6%nat => TrinoQueryError
  | inl 7%nat => QueryBuildError
  | inl 8%nat => UnknownDataSourceError
  | inl _ => Exception
  | inr q => OtherClass q
  end.

#[global] Instance ExcClass_countable : Countable ExcClass.
Proof.
  refine (inj_countable' ExcClass_code ExcClass_decode _).
  by intros [].
Defined.

(** One segment of a pydantic error location: a field name or an index. *)
Inductive LocSeg : Type :=
| LocName (s : string)
| LocIndex (i : Z).

(** [str(x)] on a location segment. *)
Definition str_loc (x : LocSeg) : string :=
  match x with
  | LocName s => s
  | LocIndex i => pretty i
  end.

(** One entry of [exc.errors()]: the keys ["loc"], ["msg"], ["type"]. *)
Record FieldError : Type := {
  err_loc : list LocSeg;
  err_msg : string;
  err_type : string
}.

(** A raised failure.  [exc_classes] is [type(exc).__mro__] from the
    class itself up to, and without, [Exception]: the values of this type
    are the instances of [Exception], which is what the handlers are
    annotated with and what [except Exception] binds.  A raise outside
    that hierarchy is not a value of this type but a [BaseExc].

    The attributes are the ones the handlers read: [str(exc)] for all of
    them, [status_code] and [detail] for an HTTP exception, [errors()] for
    a validation error. *)
Record Exc : Type := {
  exc_classes : list ExcClass;
  exc_str : string;
  exc_status_code : Z;
  exc_detail : Json;
  exc_errors : list FieldError
}.

(** A raise that is not an instance of [Exception]: the classes directly
    under [BaseException].  The cancellation of the task that runs a
    request is one ([asyncio.CancelledError], since Python 3.8). *)
Inductive BaseExc : Type :=
| CancelledError
| KeyboardInterrupt
| SystemExit
| GeneratorExit
| OtherBaseException (qualname : string).



(** ** Requests and responses *)

(** What the handlers and the middlewares read from a request:
    [request.method], [request.url.path], [str(request.query_params)] and
    [request.client.host] ([None] when [request.client] is). *)
Record Request : Type := {
  method : string;
  url_path : string;
  query_params : string;
  client : option string
}.

(** A response: its status code and its content ([JSONResponse] renders
    the content as the body). *)
Record Response : Type := {
  status_code : Z;
  content : Json
}.

Definition JSONResponse (status : Z) (body : Json) : Response :=
  {| status_code := status; content := body |}.

(** [x if x else None] for an optional string. *)
Definition json_of_option (o : option string) : Json :=
  match o with
  | Some s => JStr s
  | None => JNone
  end.

(** ** Log records *)

Inductive Level : Type :=
| INFO
| WARNING
| ERROR
| ERROR_WITH_TRACE.

(** One call of a structlog logger: the severity, the event and the
    keyword arguments. *)
Record LogRecord : Type := {
  log_level : Level;
  log_event : string;
  log_kwargs : list (string * Json)
}.

(** ** Floats of the clock *)

(** The wall clock gives Python floats.  Nothing below depends on their
    arithmetic, so they are a type with the four operations the
    middlewares apply to them. *)
Class PyFloat (F : Type) : Type := {
  float_sub : F → F → F;
  float_str : F → string;
  float_str_millis : F → string;
  float_fmt4 : F → string
}.

Section Program.

Context {F : Type} `{PyFloat F}.

(** ** The world *)

(** Everything the code reads or writes outside its arguments:
    [time.time()] (the readings to come and how many were taken), the
    structlog context variables, the emitted log records, and the two
    Prometheus metrics with one child per tuple of label values (the
    status label is kept as the integer whose [str] Prometheus stores). *)
Record World : Type := {
  clock : nat → F;
  ticks : nat;
  contextvars : gmap string Json;
  log : list LogRecord;
  REQUEST_COUNT : gmap (string * string * Z) nat;
  REQUEST_LATENCY : gmap (string * string) (list F)
}.

(** How a piece of code is left: by returning, by raising an instance of
    [Exception], or by a raise outside that hierarchy. *)
Inductive Outcome (A : Type) : Type :=
| Returned (a : A)
| Raised (e : Exc)
| RaisedBase (b : BaseExc).

#[global] Arguments Returned {A} a.
#[global] Arguments Raised {A} e.
#[global] Arguments RaisedBase {A} b.

(** A computation: from a world to the way it is left, and the world it
    leaves. *)
Definition M (A : Type) : Type := World → Outcome A * World.

#[global] Instance M_ret : MRet M :=
  λ A a w, (Returned a, w).

#[global] Instance M_bind : MBind M :=
  λ A B k m w,
    match m w with
    | (Returned a, w') => k a w'
    | (Raised e, w') => (Raised e, w')
    | (RaisedBase b, w') => (RaisedBase b, w')
    end.

(** [raise e], for an instance of [Exception] and for another raise. *)
Definition raise {A : Type} (e : Exc) : M A :=
  λ w, (Raised e, w).

Definition raise_base {A : Type} (b : BaseExc) : M A :=
  λ w, (RaisedBase b, w).

(** [try: body / except Exception as e: handler e]: the clause binds the
    instances of [Exception]; any other raise leaves the statement
    uncaught. *)
Definition try_except {A : Type} (body : M A) (handler : Exc → M A) : M A :=
  λ w,
    match body w with
    | (Returned a, w') => (Returned a, w')
    | (Raised e, w') => handler e w'
    | (RaisedBase b, w') => (RaisedBase b, w')
    end.

(** [time.time()]. *)
Definition time_time : M F :=
  λ w, (Returned (clock w (ticks w)),
        {| clock := clock w; ticks := S (ticks w);
           contextvars := contextvars w; log := log w;
           REQUEST_COUNT := REQUEST_COUNT w;
           REQUEST_LATENCY := REQUEST_LATENCY w |}).

(** A logger call appends one record. *)
Definition emit (lvl : Level) (event : string) (kwargs : list (string * Json))
  : M unit :=
  λ w, (Returned (),
        {| clock := clock w; ticks := ticks w;
           contextvars := contextvars w;
           log := log w ++ [{| log_level := lvl; log_event := event;
                               log_kwargs := kwargs |}];
           REQUEST_COUNT := REQUEST_COUNT w;
           REQUEST_LATENCY := REQUEST_LATENCY w |}).

Definition logger_info := emit INFO.
Definition logger_warning := emit WARNING.
Definition logger_error := emit ERROR.
Definition logger_exception := emit ERROR_WITH_TRACE.

(** [structlog.contextvars.clear_contextvars()]. *)
Definition clear_contextvars : M unit :=
  λ w, (Returned (),
        {| clock := clock w; ticks := ticks w;
           contextvars := ∅; log := log w;
           REQUEST_COUNT := REQUEST_COUNT w;
           REQUEST_LATENCY := REQUEST_LATENCY w |}).

(** Binding the keyword arguments one after the other. *)
Definition bind_all (kwargs : list (string * Json)) (vars : gmap string Json)
  : gmap string Json :=
  fold_left (λ m kv, <[kv.1 := kv.2]> m) kwargs vars.

(** [structlog.contextvars.bind_contextvars(key=value, ...)]. *)
Definition bind_contextvars (kwargs : list (string * Json)) : M unit :=
  λ w, (Returned (),
        {| clock := clock w; ticks := ticks w;
           contextvars := bind_all kwargs (contextvars w); log := log w;
           REQUEST_COUNT := REQUEST_COUNT w;
           REQUEST_LATENCY := REQUEST_LATENCY w |}).

(** The value of a counter child; a child that was never touched is 0. *)
Definition count_of (counts : gmap (string * string * Z) nat)
  (labels : string * string * Z) : nat :=
  default 0%nat (counts !! labels).

(** The observations of a histogram child, oldest first. *)
Definition observations_of (hist : gmap (string * string) (list F))
  (labels : string * string) : list F :=
  default [] (hist !! labels).

(** [REQUEST_COUNT.labels(method=.., path=.., status_code=..).inc()]. *)
Definition REQUEST_COUNT_inc (labels : string * string * Z) : M unit :=
  λ w, (Returned (),
        {| clock := clock w; ticks := ticks w;
           contextvars := contextvars w; log := log w;
           REQUEST_COUNT :=
             <[labels := S (count_of (REQUEST_COUNT w) labels)]> (REQUEST_COUNT w);
           REQUEST_LATENCY := REQUEST_LATENCY w |}).

(** [REQUEST_LATENCY.labels(method=.., path=..).observe(amount)]. *)
Definition REQUEST_LATENCY_observe (labels : string * string) (amount : F)
  : M unit :=
  λ w, (Returned (),
        {| clock := clock w; ticks := ticks w;
           contextvars := contextvars w; log := log w;
           REQUEST_COUNT := REQUEST_COUNT w;
           REQUEST_LATENCY :=
             <[labels := observations_of (REQUEST_LATENCY w) labels ++ [amount]]>
               (REQUEST_LATENCY w) |}).

(** ** error-handlers.py *)

(** The application object, as far as this code uses it: the debug flag
    and the dict of exception handlers by exception class. *)
Record FastAPI : Type := {
  debug : bool;
  exception_handlers : gmap ExcClass (Request → Exc → M Response)
}.

Section register_error_handlers.

(** The handlers are closures of [register_error_handlers(app)]; of [app]
    they read [app.debug] only. *)
Variable app_debug : bool.

Definition http_exception_handler (request : Request) (exc : Exc) : M Response :=
  logger_error "HTTP exception"
    [("path", JStr (url_path request));
     ("status_code", JInt (exc_status_code exc));
     ("detail", exc_detail exc)];;
  mret (JSONResponse (exc_status_code exc)
          (JDict [("error", exc_detail exc); ("type", JStr "http_error")])).

(** The body of the [for error in exc.errors()] loop: the list after the
    [append]. *)
Definition append_error_detail (error_details : list Json) (error : FieldError)
  : list Json :=
  let loc := String.concat " -> " (map str_loc (err_loc error)) in
  error_details ++
    [JDict [("location", JStr loc);
            ("message", JStr (err_msg error));
            ("type", JStr (err_type error))]].

Definition validation_exception_handler (request : Request) (exc : Exc)
  : M Response :=
  let error_details := fold_left append_error_detail (exc_errors exc) [] in
  logger_warning "Validation error"
    [("path", JStr (url_path request)); ("errors", JList error_details)];;
  mret (JSONResponse 422
          (JDict [("error", JStr "Validation error");
                  ("type", JStr "validation_error");
                  ("details", JList error_details)])).

Definition db_connection_exception_handler (request : Request) (exc : Exc)
  : M Response :=
  logger_error "Database connection error"
    [("path", JStr (url_path request)); ("error", JStr (exc_str exc))];;
  mret (JSONResponse 503
          (JDict [("error", JStr "Database connection error");
                  ("type", JStr "database_connection_error");
                  ("detail", JStr (exc_str exc))])).

Definition postgres_exception_handler (request : Request) (exc : Exc)
  : M Response :=
  logger_error "PostgreSQL error"
    [("path", JStr (url_path request)); ("error", JStr (exc_str exc))];;
  mret (JSONResponse 500
          (JDict [("error", JStr "Database error");
                  ("type", JStr "postgres_error");
                  ("detail", JStr (exc_str exc))])).

Definition spark_analysis_exception_handler (request : Request) (exc : Exc)
  : M Response :=
  logger_error "Spark analysis error"
    [("path", JStr (url_path request)); ("error", JStr (exc_str exc))];;
  mret (JSONResponse 400
          (JDict [("error", JStr "Spark query analysis error");
                  ("type", JStr "spark_analysis_error");
                  ("detail", JStr (exc_str exc))])).

Definition spark_argument_exception_handler (request : Request) (exc : Exc)
  : M Response :=
  logger_error "Spark argument error"
    [("path", JStr (url_path request)); ("error", JStr (exc_str exc))];;
  mret (JSONResponse 400
          (JDict [("error", JStr "Spark illegal argument error");
                  ("type", JStr "spark_argument_error");
                  ("detail", JStr (exc_str exc))])).

Definition trino_query_exception_handler (request : Request) (exc : Exc)
  : M Response :=
  logger_error "Trino query error"
    [("path", JStr (url_path request)); ("error", JStr (exc_str exc))];;
  mret (JSONResponse 400
          (JDict [("error", JStr "Trino query error");
                  ("type", JStr "trino_query_error");
                  ("detail", JStr (exc_str exc))])).

Definition query_build_exception_handler (request : Request) (exc : Exc)
  : M Response :=
  logger_error "Query build error"
    [("path", JStr (url_path request)); ("error", JStr (exc_str exc))];;
  mret (JSONResponse 400
          (JDict [("error", JStr "Failed to build query");
                  ("type", JStr "query_build_error");
                  ("detail", JStr (exc_str exc))])).

Definition unknown_datasource_exception_handler (request : Request) (exc : Exc)
  : M Response :=
  logger_error "Unknown data source error"
    [("path", JStr (url_path request)); ("error", JStr (exc_str exc))];;
  mret (JSONResponse 400
          (JDict [("error", JStr "Unknown data source");
                  ("type", JStr "unknown_data_source_error");
                  ("detail", JStr (exc_str exc))])).

Definition general_exception_handler (request : Request) (exc : Exc)
  : M Response :=
  logger_exception "Unhandled exception"
    [("path", JStr (url_path request)); ("error", JStr (exc_str exc))];;
  mret (JSONResponse 500
          (JDict [("error", JStr "Internal server error");
                  ("type", JStr "server_error");
                  ("detail",
                   JStr (if app_debug then exc_str exc
                         else "An unexpected error occurred"))])).

End register_error_handlers.

(** [register_error_handlers(app)]: each [@app.exception_handler(cls)]
    stores its function under [cls], in the order of the file. *)
Definition register_error_handlers (app : FastAPI) : FastAPI :=
  {| debug := debug app;
     exception_handlers :=
       <[Exception := general_exception_handler (debug app)]>
       (<[UnknownDataSourceError := unknown_datasource_exception_handler]>
       (<[QueryBuildError := query_build_exception_handler]>
       (<[TrinoQueryError := trino_query_exception_handler]>
       (<[IllegalArgumentException := spark_argument_exception_handler]>
       (<[AnalysisException := spark_analysis_exception_handler]>
       (<[PostgresError := postgres_exception_handler]>
       (<[DatabaseConnectionError := db_connection_exception_handler]>
       (<[RequestValidationError := validation_exception_handler]>
       (<[StarletteHTTPException := http_exception_handler]>
          (exception_handlers app)))))))))) |}.

(** The nine classes with a handler of their own, in the order of the
    file. *)
Definition specific_classes : list ExcClass :=
  [StarletteHTTPException; RequestValidationError; DatabaseConnectionError;
   PostgresError; AnalysisException; IllegalArgumentException;
   TrinoQueryError; QueryBuildError; UnknownDataSourceError].


(** A failure of exactly class [cls]: a direct subclass of [Exception]. *)
Definition failure_of (cls : ExcClass) (message : string) : Exc :=
  {| exc_classes := [cls]; exc_str := message; exc_status_code := 500;
     exc_detail := JStr message; exc_errors := [] |}.

(** ** logging-config.py *)

Definition LoggingMiddleware_dispatch (request : Request)
  (call_next : Request → M Response) : M Response :=
  now ← time_time;
  let request_id := float_str now in
  bind_contextvars [("request_id", JStr request_id)];;
  logger_info "Request started"
    [("method", JStr (method request));
     ("path", JStr (url_path request));
     ("query_params", JStr (query_params request));
     ("client", json_of_option (client request))];;
  start_time ← time_time;
  try_except
    (response ← call_next request;
     now ← time_time;
     let process_time := float_sub now start_time in
     logger_info "Request completed"
       [("method", JStr (method request));
        ("path", JStr (url_path request));
        ("status_code", JInt (status_code response));
        ("processing_time", JStr (float_fmt4 process_time +:+ "s"))];;
     REQUEST_COUNT_inc (method request, url_path request, status_code response);;
     REQUEST_LATENCY_observe (method request, url_path request) process_time;;
     mret response)
    (λ e,
     now ← time_time;
     let process_time := float_sub now start_time in
     logger_exception "Request failed"
       [("method", JStr (method request));
        ("path", JStr (url_path request));
        ("processing_time", JStr (float_fmt4 process_time +:+ "s"));
        ("error", JStr (exc_str e))];;
     REQUEST_COUNT_inc (method request, url_path request, 500);;
     REQUEST_LATENCY_observe (method request, url_path request) process_time;;
     raise e).

Definition RequestLoggingContextMiddleware_dispatch (request : Request)
  (call_next : Request → M Response) : M Response :=
  now ← time_time;
  let request_id := float_str_millis now in
  clear_contextvars;;
  bind_contextvars
    [("request_id", JStr request_id);
     ("method", JStr (method request));
     ("path", JStr (url_path request));
     ("client_ip", json_of_option (client request))];;
  response ← call_next request;
  bind_contextvars [("status_code", JInt (status_code response))];;
  mret response.

(** The middleware classes an application can have installed. *)
Inductive Middleware : Type :=
| LoggingMiddleware
| RequestLoggingContextMiddleware
| OtherMiddleware (qualname : string).

(** [app.add_middleware(cls)] on the application's list of middlewares,
    whose first entry is the outermost: the class is inserted at the
    front. *)
Definition add_middleware (cls : Middleware) (user_middleware : list Middleware)
  : list Middleware :=
  cls :: user_middleware.

(** [setup_middleware(app)], on the application's list of middlewares. *)
Definition setup_middleware (user_middleware : list Middleware)
  : list Middleware :=
  add_middleware LoggingMiddleware
    (add_middleware RequestLoggingContextMiddleware user_middleware).

End Program.

#[global] Arguments World F : clear implicits.
#[global] Arguments M F A : clear implicits.
#[global] Arguments FastAPI F : clear implicits.

(** ** Reading results *)

Section Results.

Context {F : Type} `{PyFloat F}.

(** The response a computation returned, if it returned. *)
Definition returned {A : Type} (r : Outcome A * World F) : option A :=
  match r.1 with
  | Returned a => Some a
  | Raised _ | RaisedBase _ => None
  end.

(** What a computation raised, if it raised: an instance of [Exception] or
    another raise. *)
Definition raised {A : Type} (r : Outcome A * World F) : option (Exc + BaseExc) :=
  match r.1 with
  | Returned _ => None
  | Raised e => Some (inl e)
  | RaisedBase b => Some (inr b)
  end.

(** The status code and the ["type"] of the returned response. *)
Definition status_and_type (r : Outcome Response * World F)
  : option (Z * option Json) :=
  resp ← returned r; Some (status_code resp, json_get "type" (content resp)).

(** One key of the returned response's body. *)
Definition body_field (key : string) (r : Outcome Response * World F)
  : option Json :=
  resp ← returned r; json_get key (content resp).

(** The keys of the returned response's body. *)
Definition body_keys (r : Outcome Response * World F) : option (list string) :=
  resp ← returned r; Some (json_keys (content resp)).

(** What the handler registered for [cls] answers, after
    [register_error_handlers(app)]. *)
Definition registered_answer (app : FastAPI F) (cls : ExcClass)
  (request : Request) (exc : Exc) (w : World F) : option (Outcome Response * World F) :=
  handler ← exception_handlers (register_error_handlers app) !! cls;
  Some (handler request exc w).

(** Its status code and ["type"]. *)
Definition registered_status_and_type (app : FastAPI F) (cls : ExcClass)
  (request : Request) (exc : Exc) (w : World F) : option (Z * option Json) :=
  r ← registered_answer app cls request exc w; status_and_type r.

(** The entry of ["details"] that the specification describes for one
    field error: the location segments joined with [" -> "], then the
    message and the type. *)
Definition spec_detail_entry (error : FieldError) : Json :=
  JDict [("location", JStr (String.concat " -> " (map str_loc (err_loc error))));
         ("message", JStr (err_msg error));
         ("type", JStr (err_type error))].

(** The world in which [LoggingMiddleware.dispatch] calls [call_next],
    and the [start_time] it has taken: the statements before the [try]. *)
Definition LoggingMiddleware_entry (request : Request) : M F F :=
  now ← time_time;
  let request_id := float_str now in
  bind_contextvars [("request_id", JStr request_id)];;
  logger_info "Request started"
    [("method", JStr (method request));
     ("path", JStr (url_path request));
     ("query_params", JStr (query_params request));
     ("client", json_of_option (client request))];;
  time_time.

(** The world in which [RequestLoggingContextMiddleware.dispatch] calls
    [call_next]: the statements before the call. *)
Definition RequestLoggingContextMiddleware_entry (request : Request) : M F unit :=
  now ← time_time;
  let request_id := float_str_millis now in
  clear_contextvars;;
  bind_contextvars
    [("request_id", JStr request_id);
     ("method", JStr (method request));
     ("path", JStr (url_path request));
     ("client_ip", json_of_option (client request))].

Definition LoggingMiddleware_call_world (request : Request) (w : World F)
  : World F :=
  (LoggingMiddleware_entry request w).2.

Definition RequestLoggingContextMiddleware_call_world (request : Request)
  (w : World F) : World F :=
  (RequestLoggingContextMiddleware_entry request w).2.

(** The status label of the counter child a call of
    [LoggingMiddleware.dispatch] increments, by the outcome of the
    downstream stage: none when the stage is left by a raise that
    [except Exception] does not bind. *)
Definition status_label (outcome : Outcome Response) : option Z :=
  match outcome with
  | Returned response => Some (status_code response)
  | Raised _ => Some 500
  | RaisedBase _ => None
  end.

(** The sum of all children of the request counter, and the number of
    observations in all children of the duration histogram. *)
Definition total_count (w : World F) : nat :=
  map_fold (λ _ n acc, (n + acc)%nat) 0%nat (REQUEST_COUNT w).

Definition total_observations (w : World F) : nat :=
  map_fold (λ _ obs acc, (length obs + acc)%nat) 0%nat (REQUEST_LATENCY w).

End Results.

(** ** Sample inputs *)

(** Clock readings in whole seconds, as a sample of the floats. *)
#[global] Instance whole_seconds : PyFloat Z := {|
  float_sub := Z.sub;
  float_str := λ t, pretty t +:+ ".0";
  float_str_millis := λ t, pretty (t * 1000);
  float_fmt4 := λ t, pretty t +:+ ".0000"
|}.

(** A world at second 1700000000 in which nothing has happened yet. *)
Definition fresh_world : World Z :=
  {| clock := λ n, 1700000000 + Z.of_nat n; ticks := 0;
     contextvars := ∅; log := [];
     REQUEST_COUNT := ∅; REQUEST_LATENCY := ∅ |}.

Definition new_app (debug_mode : bool) : FastAPI Z :=
  {| debug := debug_mode; exception_handlers := ∅ |}.

Definition sample_request : Request :=
  {| method := "GET"; url_path := "/query"; query_params := "limit=10";
     client := Some "10.0.0.7" |}.

Definition sample_response : Response :=
  JSONResponse 200 (JDict [("rows", JList [])]).

(** The validation failure of the specification's example. *)
Definition sample_validation_error : Exc :=
  {| exc_classes := [RequestValidationError; OtherClass "ValueError"];
     exc_str := "1 validation error";
     exc_status_code := 422;
     exc_detail := JNone;
     exc_errors :=
       [{| err_loc := [LocName "body"; LocName "age"];
           err_msg := "must be positive";
           err_type := "value_error" |}] |}.

(** A downstream stage that answers [sample_response], and one that
    raises a [KeyError]. *)
Definition answering : Request → M Z Response :=
  λ _, mret sample_response.

Definition failing : Request → M Z Response :=
  λ _, raise (failure_of (OtherClass "KeyError") "'table'").

(** A downstream stage that is cancelled while it runs. *)
Definition cancelled : Request → M Z Response :=
  λ _, raise_base CancelledError.

(** ** setup_logging *)

(** The levels of Python's [logging] module. *)
Definition logging_DEBUG : Z := 10.
Definition logging_INFO : Z := 20.
Definition logging_WARNING : Z := 30.

Inductive Stream : Type :=
| sys_stdout
| sys_stderr.

(** A handler of the root logger: where it writes and its format. *)
Record StreamHandler : Type := {
  handler_stream : Stream;
  handler_format : string
}.

(** The structlog processors [setup_logging] configures. *)
Inductive Processor : Type :=
| merge_contextvars
| filter_by_level
| add_logger_name
| add_log_level
| PositionalArgumentsFormatter
| TimeStamper (fmt : string)
| StackInfoRenderer
| format_exc_info
| UnicodeDecoder
| JSONRenderer (sort_keys : bool)
| OtherProcessor (name : string).

(** The state of the logging libraries: the root logger's handlers and
    level, the levels set on named loggers (a logger without an entry has
    no level of its own), and the global configuration of structlog. *)
Record Logging : Type := {
  root_handlers : list StreamHandler;
  root_level : Z;
  logger_levels : gmap string Z;
  structlog_is_configured : bool;
  structlog_processors : list Processor;
  structlog_logger_factory : string;
  structlog_wrapper_class : string;
  structlog_cache_logger_on_first_use : bool
}.

(** [logging.basicConfig(format=.., level=.., stream=..)]: it configures
    the root logger only when the root logger has no handler yet, and does
    nothing otherwise. *)
Definition logging_basicConfig (format : string) (level : Z) (stream : Stream)
  (st : Logging) : Logging :=
  match root_handlers st with
  | [] =>
      {| root_handlers :=
           [{| handler_stream := stream; handler_format := format |}];
         root_level := level;
         logger_levels := logger_levels st;
         structlog_is_configured := structlog_is_configured st;
         structlog_processors := structlog_processors st;
         structlog_logger_factory := structlog_logger_factory st;
         structlog_wrapper_class := structlog_wrapper_class st;
         structlog_cache_logger_on_first_use :=
           structlog_cache_logger_on_first_use st |}
  | _ :: _ => st
  end.

(** [structlog.configure(processors=.., logger_factory=..,
    wrapper_class=.., cache_logger_on_first_use=..)]. *)
Definition structlog_configure (processors : list Processor)
  (logger_factory wrapper_class : string) (cache_logger_on_first_use : bool)
  (st : Logging) : Logging :=
  {| root_handlers := root_handlers st;
     root_level := root_level st;
     logger_levels := logger_levels st;
     structlog_is_configured := true;
     structlog_processors := processors;
     structlog_logger_factory := logger_factory;
     structlog_wrapper_class := wrapper_class;
     structlog_cache_logger_on_first_use := cache_logger_on_first_use |}.

(** [logging.getLogger(name).setLevel(level)]. *)
Definition setLevel (st : Logging) (name : string) (level : Z) : Logging :=
  {| root_handlers := root_handlers st;
     root_level := root_level st;
     logger_levels := <[name := level]> (logger_levels st);
     structlog_is_configured := structlog_is_configured st;
     structlog_processors := structlog_processors st;
     structlog_logger_factory := structlog_logger_factory st;
     structlog_wrapper_class := structlog_wrapper_class st;
     structlog_cache_logger_on_first_use :=
       structlog_cache_logger_on_first_use st |}.

(** The loggers of the [for logger_name in [...]] loop. *)
Definition library_loggers : list string :=
  ["uvicorn"; "uvicorn.access"; "uvicorn.error"; "fastapi"; "asyncpg";
   "py4j"; "trino"].

(** [setup_logging(debug)], as the change it makes to the logging
    libraries (the logger it returns is [structlog.get_logger()]). *)
Definition setup_logging (debug_mode : bool) (st : Logging) : Logging :=
  let log_level := if debug_mode then logging_DEBUG else logging_INFO in
  let st := logging_basicConfig "%(message)s" log_level sys_stdout st in
  let st :=
    structlog_configure
      [merge_contextvars; filter_by_level; add_logger_name; add_log_level;
       PositionalArgumentsFormatter; TimeStamper "iso"; StackInfoRenderer;
       format_exc_info; UnicodeDecoder; JSONRenderer true]
      "structlog.stdlib.LoggerFactory" "structlog.stdlib.BoundLogger" true st in
  let st :=
    fold_left (λ st logger_name, setLevel st logger_name log_level)
      library_loggers st in
  setLevel st "py4j" logging_WARNING.

(** The logging libraries of a fresh interpreter: no handler on the root
    logger, whose level is WARNING, and structlog not configured. *)
Definition fresh_logging : Logging :=
  {| root_handlers := [];
     root_level := logging_WARNING;
     logger_levels := ∅;
     structlog_is_configured := false;
     structlog_processors := [];
     structlog_logger_factory := "structlog.PrintLoggerFactory";
     structlog_wrapper_class := "structlog.BoundLogger";
     structlog_cache_logger_on_first_use := false |}.

(** ** More readers and samples *)

Section MoreResults.

Context {F : Type} `{PyFloat F}.

(** The ten handlers in the order of the file, each with the severity of
    the logger method it calls. *)
Definition handlers_with_levels (app_debug : bool)
  : list (Level * (Request → Exc → M F Response)) :=
  [(ERROR, http_exception_handler);
   (WARNING, validation_exception_handler);
   (ERROR, db_connection_exception_handler);
   (ERROR, postgres_exception_handler);
   (ERROR, spark_analysis_exception_handler);
   (ERROR, spark_argument_exception_handler);
   (ERROR, trino_query_exception_handler);
   (ERROR, query_build_exception_handler);
   (ERROR, unknown_datasource_exception_handler);
   (ERROR_WITH_TRACE, general_exception_handler app_debug)].

(** An application with the given debug flag and no exception handler. *)
Definition app_without_handlers (app_debug : bool) : FastAPI F :=
  {| debug := app_debug; exception_handlers := ∅ |}.

(** The world in which the application is called when the two
    middlewares are installed as [setup_middleware] installs them:
    [LoggingMiddleware] outermost, [RequestLoggingContextMiddleware] inside
    it. *)
Definition stack_call_world (request : Request) (w : World F) : World F :=
  RequestLoggingContextMiddleware_call_world request
    (LoggingMiddleware_call_world request w).

(** The "Request started" record. *)
Definition request_started (request : Request) : LogRecord :=
  {| log_level := INFO; log_event := "Request started";
     log_kwargs :=
       [("method", JStr (method request));
        ("path", JStr (url_path request));
        ("query_params", JStr (query_params request));
        ("client", json_of_option (client request))] |}.

(** The "Request completed" record. *)
Definition request_completed (request : Request) (response : Response)
  (process_time : F) : LogRecord :=
  {| log_level := INFO; log_event := "Request completed";
     log_kwargs :=
       [("method", JStr (method request));
        ("path", JStr (url_path request));
        ("status_code", JInt (status_code response));
        ("processing_time", JStr (float_fmt4 process_time +:+ "s"))] |}.

End MoreResults.

(** A downstream stage that logs one record and answers
    [sample_response]. *)
Definition answering_with_log : Request → M Z Response :=
  λ _, logger_info "Query executed" [("rows", JInt 0)];; mret sample_response.

(** Running a computation: the primitives of [M] are unfolded and the
    resulting matches reduced. *)
Ltac run_M :=
  unfold mbind, M_bind, mret, M_ret, raise, raise_base, try_except, time_time,
    bind_contextvars, clear_contextvars, logger_info, logger_warning,
    logger_error, logger_exception, emit, REQUEST_COUNT_inc,
    REQUEST_LATENCY_observe;
  cbn.

(** ** Properties of the error handlers *)

Section HandlerProperties.

Context {F : Type} `{PyFloat F}.

Implicit Types (app : FastAPI F) (request : Request) (exc : Exc) (w : World F).

(** The loop of the validation handler appends one entry per field error,
    in their order. *)
Lemma fold_append_error_detail (errors : list FieldError) (acc : list Json) :
  fold_left append_error_detail errors acc = acc ++ map spec_detail_entry errors.
Proof.
  revert acc; induction errors as [|error errors IH]; intros acc; simpl.
  - by rewrite app_nil_r.
  - rewrite IH. unfold append_error_detail, spec_detail_entry.
    by rewrite <- app_assoc.
Qed.



(** C1, as the code has it: after [register_error_handlers], the handler
    registered for each of the ten classes returns a fixed status code and
    ["type"] whatever the failure's message is.  The status codes are those
    of the precedence table; the types are those of the table except for the
    relational-store failure ("postgres_error"), the two big-data-engine
    failures ("spark_analysis_error", "spark_argument_error") and the
    distributed-query-engine failure ("trino_query_error"). *)
Theorem registered_handlers_status_and_type app request exc w :
  registered_status_and_type app StarletteHTTPException request exc w
    = Some (exc_status_code exc, Some (JStr "http_error")) ∧
  registered_status_and_type app RequestValidationError request exc w
    = Some (422, Some (JStr "validation_error")) ∧
  registered_status_and_type app DatabaseConnectionError request exc w
    = Some (503, Some (JStr "database_connection_error")) ∧
  registered_status_and_type app PostgresError request exc w
    = Some (500, Some (JStr "postgres_error")) ∧
  registered_status_and_type app AnalysisException request exc w
    = Some (400, Some (JStr "spark_analysis_error")) ∧
  registered_status_and_type app IllegalArgumentException request exc w
    = Some (400, Some (JStr "spark_argument_error")) ∧
  registered_status_and_type app TrinoQueryError request exc w
    = Some (400, Some (JStr "trino_query_error")) ∧
  registered_status_and_type app QueryBuildError request exc w
    = Some (400, Some (JStr "query_build_error")) ∧
  registered_status_and_type app UnknownDataSourceError request exc w
    = Some (400, Some (JStr "unknown_data_source_error")) ∧
  registered_status_and_type app Exception request exc w
    = Some (500, Some (JStr "server_error")).
Proof.
  unfold registered_status_and_type, registered_answer.
  cbn [register_error_handlers exception_handlers].
  repeat split;
    rewrite ?lookup_insert_eq;
    repeat (rewrite lookup_insert_ne by discriminate; rewrite ?lookup_insert_eq);
    reflexivity.
Qed.

(** C3: the catch-all handler with debug mode off answers the fixed detail
    "An unexpected error occurred", so two failures with different messages
    get the same detail; with debug mode on the detail is the failure's
    message. *)
Theorem catch_all_detail_guard request exc w :
  body_field "detail" (general_exception_handler false request exc w)
    = Some (JStr "An unexpected error occurred") ∧
  body_field "detail" (general_exception_handler true request exc w)
    = Some (JStr (exc_str exc)) ∧
  ∀ request' exc' w',
    body_field "detail" (general_exception_handler false request exc w)
    = body_field "detail" (general_exception_handler false request' exc' w').
Proof. repeat split. Qed.


(** C5: the validation handler answers status 422 and the type
    "validation_error", and its details are, for the field errors in their
    order, the entries the specification describes; the field error
    (["body"; "age"], "must be positive", "value_error") gives the location
    "body -> age". *)
Theorem validation_details request exc w :
  returned (validation_exception_handler request exc w)
    = Some (JSONResponse 422
              (JDict [("error", JStr "Validation error");
                      ("type", JStr "validation_error");
                      ("details", JList (map spec_detail_entry (exc_errors exc)))])) ∧
  body_field "details"
      (validation_exception_handler request sample_validation_error w)
    = Some (JList [JDict [("location", JStr "body -> age");
                          ("message", JStr "must be positive");
                          ("type", JStr "value_error")]]).
Proof.
  split; [|reflexivity].
  unfold validation_exception_handler, returned. cbn.
  by rewrite fold_append_error_detail.
Qed.

(** C8: the HTTP handler answers the failure's own status code, the type
    "http_error" and the failure's detail under "error". *)
Theorem http_status_passthrough request exc w :
  returned (http_exception_handler request exc w)
    = Some {| status_code := exc_status_code exc;
              content := JDict [("error", exc_detail exc);
                                ("type", JStr "http_error")] |} ∧
  status_and_type (http_exception_handler request exc w)
    = Some (exc_status_code exc, Some (JStr "http_error")) ∧
  body_field "error" (http_exception_handler request exc w)
    = Some (exc_detail exc).
Proof. repeat split. Qed.

(** C10, as the code has it: the body of the HTTP handler has exactly the
    keys "error" and "type" and no "detail"; the bodies of the seven other
    specific non-validation handlers have a "detail" that is the failure's
    message; the body of the catch-all handler has a "detail" too, which is
    the failure's message in debug mode and the fixed text otherwise. *)
Theorem detail_key_by_category (app_debug : bool) request exc w :
  body_keys (http_exception_handler request exc w) = Some ["error"; "type"] ∧
  body_field "detail" (http_exception_handler request exc w) = None ∧
  Forall (λ handler : Request → Exc → M F Response,
            body_field "detail" (handler request exc w)
            = Some (JStr (exc_str exc)))
         [db_connection_exception_handler; postgres_exception_handler;
          spark_analysis_exception_handler; spark_argument_exception_handler;
          trino_query_exception_handler; query_build_exception_handler;
          unknown_datasource_exception_handler] ∧
  body_field "detail" (general_exception_handler app_debug request exc w)
    = Some (JStr (if app_debug then exc_str exc
                  else "An unexpected error occurred")).
Proof. repeat split. repeat constructor. Qed.

End HandlerProperties.

(** ** Properties of the middlewares *)

Section MiddlewareProperties.

Context {F : Type} `{PyFloat F}.

Implicit Types (request : Request) (call_next : Request → M F Response).
Implicit Types (w : World F) (response : Response) (e : Exc).

(** A sum over the children of a metric, after one child was set. *)
Lemma map_sum_insert {K A : Type} `{Countable K} (size_of : A → nat)
  (m : gmap K A) (k : K) (x : A) :
  (map_fold (λ _ a acc, size_of a + acc) 0 (<[k:=x]> m)
   + from_option size_of 0 (m !! k)
   = size_of x + map_fold (λ _ a acc, size_of a + acc) 0 m)%nat.
Proof.
  destruct (m !! k) as [y|] eqn:Hk; simpl.
  - rewrite <- (insert_delete_eq m k x).
    rewrite map_fold_insert_L; [|intros; lia|apply lookup_delete_eq].
    rewrite (map_fold_delete_L _ _ k y m); [lia|intros; lia|done].
  - rewrite map_fold_insert_L; [lia|intros; lia|done].
Qed.

(** The statements before the [try] leave the metrics alone, bind
    [request_id] and take two readings of the clock. *)
Lemma LoggingMiddleware_call_world_spec request w :
  REQUEST_COUNT (LoggingMiddleware_call_world request w) = REQUEST_COUNT w ∧
  REQUEST_LATENCY (LoggingMiddleware_call_world request w) = REQUEST_LATENCY w ∧
  contextvars (LoggingMiddleware_call_world request w)
    = <["request_id" := JStr (float_str (clock w (ticks w)))]> (contextvars w) ∧
  ticks (LoggingMiddleware_call_world request w) = S (S (ticks w)) ∧
  clock (LoggingMiddleware_call_world request w) = clock w.
Proof. repeat split. Qed.

(** The world [LoggingMiddleware.dispatch] leaves when the downstream stage
    returns. *)
Lemma LoggingMiddleware_dispatch_returned request call_next w response w1 :
  call_next request (LoggingMiddleware_call_world request w)
    = (Returned response, w1) →
  let process_time := float_sub (clock w1 (ticks w1)) (clock w (S (ticks w))) in
  let labels := (method request, url_path request) in
  LoggingMiddleware_dispatch request call_next w
  = (Returned response,
     {| clock := clock w1; ticks := S (ticks w1);
        contextvars := contextvars w1;
        log := log w1 ++
          [{| log_level := INFO; log_event := "Request completed";
              log_kwargs :=
                [("method", JStr (method request));
                 ("path", JStr (url_path request));
                 ("status_code", JInt (status_code response));
                 ("processing_time", JStr (float_fmt4 process_time +:+ "s"))] |}];
        REQUEST_COUNT :=
          <[(labels, status_code response) :=
              S (count_of (REQUEST_COUNT w1) (labels, status_code response))]>
            (REQUEST_COUNT w1);
        REQUEST_LATENCY :=
          <[labels := observations_of (REQUEST_LATENCY w1) labels ++ [process_time]]>
            (REQUEST_LATENCY w1) |}).
Proof.
  unfold LoggingMiddleware_call_world, LoggingMiddleware_entry,
    LoggingMiddleware_dispatch.
  run_M. intros ->. reflexivity.
Qed.

(** The world it leaves when the downstream stage raises. *)
Lemma LoggingMiddleware_dispatch_raised request call_next w e w1 :
  call_next request (LoggingMiddleware_call_world request w) = (Raised e, w1) →
  let process_time := float_sub (clock w1 (ticks w1)) (clock w (S (ticks w))) in
  let labels := (method request, url_path request) in
  LoggingMiddleware_dispatch request call_next w
  = (Raised e,
     {| clock := clock w1; ticks := S (ticks w1);
        contextvars := contextvars w1;
        log := log w1 ++
          [{| log_level := ERROR_WITH_TRACE; log_event := "Request failed";
              log_kwargs :=
                [("method", JStr (method request));
                 ("path", JStr (url_path request));
                 ("processing_time", JStr (float_fmt4 process_time +:+ "s"));
                 ("error", JStr (exc_str e))] |}];
        REQUEST_COUNT :=
          <[(labels, 500) := S (count_of (REQUEST_COUNT w1) (labels, 500))]>
            (REQUEST_COUNT w1);
        REQUEST_LATENCY :=
          <[labels := observations_of (REQUEST_LATENCY w1) labels ++ [process_time]]>
            (REQUEST_LATENCY w1) |}).
Proof.
  unfold LoggingMiddleware_call_world, LoggingMiddleware_entry,
    LoggingMiddleware_dispatch.
  run_M. intros ->. reflexivity.
Qed.

(** A raise that is not an instance of [Exception] leaves
    [LoggingMiddleware.dispatch] as it left the downstream stage: the
    [except] clause does not bind it, and the world is the one the
    downstream stage left. *)
Lemma LoggingMiddleware_dispatch_raised_base request call_next w
  (b : BaseExc) w1 :
  call_next request (LoggingMiddleware_call_world request w)
    = (RaisedBase b, w1) →
  LoggingMiddleware_dispatch request call_next w = (RaisedBase b, w1).
Proof.
  unfold LoggingMiddleware_call_world, LoggingMiddleware_entry,
    LoggingMiddleware_dispatch.
  run_M. intros ->. reflexivity.
Qed.

(** What [RequestLoggingContextMiddleware.dispatch] does around the
    downstream call: a returned response is returned with [status_code]
    bound on top of the context the call left; a raised failure goes on,
    from the world the call left. *)
Lemma RequestLoggingContextMiddleware_dispatch_spec request call_next w :
  match call_next request (RequestLoggingContextMiddleware_call_world request w) with
  | (Returned response, w1) =>
      returned (RequestLoggingContextMiddleware_dispatch request call_next w)
        = Some response ∧
      contextvars (RequestLoggingContextMiddleware_dispatch request call_next w).2
        = <["status_code" := JInt (status_code response)]> (contextvars w1)
  | (Raised e, w1) =>
      RequestLoggingContextMiddleware_dispatch request call_next w = (Raised e, w1)
  | (RaisedBase b, w1) =>
      RequestLoggingContextMiddleware_dispatch request call_next w
        = (RaisedBase b, w1)
  end.
Proof.
  unfold RequestLoggingContextMiddleware_call_world,
    RequestLoggingContextMiddleware_entry,
    RequestLoggingContextMiddleware_dispatch.
  run_M.
  match goal with |- context [call_next request ?w0] =>
    destruct (call_next request w0) as [[response|e|b] w1] end;
    [split| |]; reflexivity.
Qed.

(** C2, as the code has it: [RequestLoggingContextMiddleware.dispatch]
    clears every earlier binding at entry and binds request_id, method, path
    and client_ip; [LoggingMiddleware.dispatch] binds request_id on top of
    the earlier bindings.  Neither clears anything on exit: when the
    downstream call returns, the context it left stays, with status_code
    added by [RequestLoggingContextMiddleware]; when it raises, the context
    it left stays as it is, whatever was raised. *)
Theorem context_bound_at_entry_kept_on_exit request call_next w :
  contextvars (RequestLoggingContextMiddleware_call_world request w)
    = <["client_ip" := json_of_option (client request)]>
        (<["path" := JStr (url_path request)]>
          (<["method" := JStr (method request)]>
            (<["request_id" := JStr (float_str_millis (clock w (ticks w)))]> ∅))) ∧
  match call_next request (RequestLoggingContextMiddleware_call_world request w) with
  | (Returned response, w1) =>
      contextvars (RequestLoggingContextMiddleware_dispatch request call_next w).2
        = <["status_code" := JInt (status_code response)]> (contextvars w1)
  | (Raised _, w1) | (RaisedBase _, w1) =>
      contextvars (RequestLoggingContextMiddleware_dispatch request call_next w).2
        = contextvars w1
  end ∧
  contextvars (LoggingMiddleware_call_world request w)
    = <["request_id" := JStr (float_str (clock w (ticks w)))]> (contextvars w) ∧
  contextvars (LoggingMiddleware_dispatch request call_next w).2
    = contextvars (call_next request (LoggingMiddleware_call_world request w)).2.
Proof.
  split; [reflexivity|]. split.
  { pose proof (RequestLoggingContextMiddleware_dispatch_spec request call_next w)
      as Hspec.
    destruct (call_next request _) as [[response|e|b] w1].
    - apply Hspec.
    - by rewrite Hspec.
    - by rewrite Hspec. }
  split; [reflexivity|].
  destruct (call_next request (LoggingMiddleware_call_world request w))
    as [[response|e|b] w1] eqn:Hcall.
  - by rewrite (LoggingMiddleware_dispatch_returned _ _ _ _ _ Hcall).
  - by rewrite (LoggingMiddleware_dispatch_raised _ _ _ _ _ Hcall).
  - by rewrite (LoggingMiddleware_dispatch_raised_base _ _ _ _ _ Hcall).
Qed.

(** C6, as the code has it: when the downstream stage returns or raises
    an instance of [Exception], a call of [LoggingMiddleware.dispatch] adds
    exactly one to one child of the request counter and exactly one
    observation to one child of the duration histogram, on top of what the
    downstream stage left.  When the downstream stage is left by a raise
    that is not an instance of [Exception], the call records nothing: it
    leaves the world as the downstream stage left it.  Before the
    downstream call both metrics are left as they were. *)
Theorem one_count_and_observation_unless_uncaught request call_next w
  (outcome : Outcome Response) w1 :
  call_next request (LoggingMiddleware_call_world request w) = (outcome, w1) →
  let w' := (LoggingMiddleware_dispatch request call_next w).2 in
  let labels := (method request, url_path request) in
  REQUEST_COUNT (LoggingMiddleware_call_world request w) = REQUEST_COUNT w ∧
  REQUEST_LATENCY (LoggingMiddleware_call_world request w) = REQUEST_LATENCY w ∧
  match status_label outcome with
  | Some status =>
      REQUEST_COUNT w'
        = <[(labels, status) := S (count_of (REQUEST_COUNT w1) (labels, status))]>
            (REQUEST_COUNT w1) ∧
      (∃ process_time,
         REQUEST_LATENCY w'
         = <[labels := observations_of (REQUEST_LATENCY w1) labels
                         ++ [process_time]]>
             (REQUEST_LATENCY w1)) ∧
      total_count w' = S (total_count w1) ∧
      total_observations w' = S (total_observations w1)
  | None =>
      w' = w1
  end.
Proof.
  intros Hcall w' labels. subst w'.
  split; [reflexivity|]. split; [reflexivity|].
  assert (∀ wf d status,
    REQUEST_COUNT wf
      = <[(labels, status) := S (count_of (REQUEST_COUNT w1) (labels, status))]>
          (REQUEST_COUNT w1) →
    REQUEST_LATENCY wf
      = <[labels := observations_of (REQUEST_LATENCY w1) labels ++ [d]]>
          (REQUEST_LATENCY w1) →
    total_count wf = S (total_count w1) ∧
    total_observations wf = S (total_observations w1)) as Htotals.
  { intros wf d status Hc Hl. unfold total_count, total_observations.
    rewrite Hc, Hl. split.
    - pose proof (map_sum_insert (λ n : nat, n) (REQUEST_COUNT w1)
                    (labels, status)
                    (S (count_of (REQUEST_COUNT w1) (labels, status)))) as Hsum.
      unfold count_of, default in *. cbn beta in Hsum.
      destruct (REQUEST_COUNT w1 !! (labels, status)); unfold id in *;
        simpl in Hsum; lia.
    - pose proof (map_sum_insert (@length F) (REQUEST_LATENCY w1) labels
                    (observations_of (REQUEST_LATENCY w1) labels ++ [d])) as Hsum.
      rewrite length_app in Hsum. unfold observations_of, default in *.
      destruct (REQUEST_LATENCY w1 !! labels); unfold id in *;
        simpl in Hsum |- *; lia. }
  destruct outcome as [response|e|b]; cbn [status_label].
  - rewrite (LoggingMiddleware_dispatch_returned _ _ _ _ _ Hcall). cbn [snd].
    split; [reflexivity|]. split; [eexists; reflexivity|].
    eapply Htotals; reflexivity.
  - rewrite (LoggingMiddleware_dispatch_raised _ _ _ _ _ Hcall). cbn [snd].
    split; [reflexivity|]. split; [eexists; reflexivity|].
    eapply Htotals; reflexivity.
  - by rewrite (LoggingMiddleware_dispatch_raised_base _ _ _ _ _ Hcall).
Qed.

(** C7, as the code has it: when the downstream stage raises an instance
    [e] of [Exception], whatever its class, [LoggingMiddleware.dispatch]
    increments the counter child labelled with the status code 500,
    observes the elapsed time, logs "Request failed" and raises [e] itself.
    A raise that is not an instance of [Exception] goes through with
    nothing counted, observed or logged.  In both cases the call raises
    what the downstream stage raised and returns no response. *)
Theorem exception_counted_as_500_and_reraised request call_next w
  (failure : Exc + BaseExc) :
  raised (call_next request (LoggingMiddleware_call_world request w))
    = Some failure →
  let r := LoggingMiddleware_dispatch request call_next w in
  let w1 := (call_next request (LoggingMiddleware_call_world request w)).2 in
  let labels := (method request, url_path request) in
  let process_time := float_sub (clock w1 (ticks w1)) (clock w (S (ticks w))) in
  raised r = Some failure ∧
  returned r = None ∧
  match failure with
  | inl e =>
      REQUEST_COUNT r.2
        = <[(labels, 500) := S (count_of (REQUEST_COUNT w1) (labels, 500))]>
            (REQUEST_COUNT w1) ∧
      REQUEST_LATENCY r.2
        = <[labels := observations_of (REQUEST_LATENCY w1) labels
                        ++ [process_time]]>
            (REQUEST_LATENCY w1) ∧
      log r.2
        = log w1 ++
            [{| log_level := ERROR_WITH_TRACE; log_event := "Request failed";
                log_kwargs :=
                  [("method", JStr (method request));
                   ("path", JStr (url_path request));
                   ("processing_time", JStr (float_fmt4 process_time +:+ "s"));
                   ("error", JStr (exc_str e))] |}]
  | inr _ =>
      r.2 = w1
  end.
Proof.
  intros Hraised r w1 labels process_time. subst r w1 process_time.
  destruct (call_next request (LoggingMiddleware_call_world request w))
    as [[response|e|b] w1] eqn:Hcall; unfold raised in Hraised;
    cbn in Hraised; [discriminate| |]; injection Hraised as <-.
  - rewrite (LoggingMiddleware_dispatch_raised _ _ _ _ _ Hcall). repeat split.
  - rewrite (LoggingMiddleware_dispatch_raised_base _ _ _ _ _ Hcall).
    repeat split.
Qed.

(** C9: when the downstream stage returns a response,
    [LoggingMiddleware.dispatch] returns that very response. *)
Theorem response_returned_unchanged request call_next w response w1 :
  call_next request (LoggingMiddleware_call_world request w)
    = (Returned response, w1) →
  returned (LoggingMiddleware_dispatch request call_next w) = Some response ∧
  raised (LoggingMiddleware_dispatch request call_next w) = None.
Proof.
  intros Hcall.
  by rewrite (LoggingMiddleware_dispatch_returned _ _ _ _ _ Hcall).
Qed.

End MiddlewareProperties.


(** C1 as the specification words it fails: the handler registered for the
    relational-store failure does not answer the type "database_error". *)
Lemma relational_store_type_is_not_database_error :
  registered_status_and_type (new_app false) PostgresError sample_request
    (failure_of PostgresError "relation does not exist") fresh_world
  ≠ Some (500, Some (JStr "database_error")).
Proof. vm_compute. discriminate. Qed.

(** C10 as the specification words it fails: with debug mode off the
    catch-all body has a "detail" that is not the failure's message. *)
Lemma catch_all_detail_is_not_the_message :
  body_field "detail"
    (general_exception_handler false sample_request
       (failure_of (OtherClass "KeyError") "'table'") fresh_world)
  ≠ Some (JStr (exc_str (failure_of (OtherClass "KeyError") "'table'"))).
Proof. vm_compute. discriminate. Qed.

(** C2 as the specification words it fails: after
    [RequestLoggingContextMiddleware.dispatch], whether the downstream
    stage returned or raised, and after [LoggingMiddleware.dispatch], the
    request_id bound at entry is still bound. *)
Lemma request_id_still_bound_on_exit :
  contextvars
    (RequestLoggingContextMiddleware_dispatch sample_request answering
       fresh_world).2 !! "request_id"
  = Some (JStr "1700000000000") ∧
  contextvars
    (RequestLoggingContextMiddleware_dispatch sample_request failing
       fresh_world).2 !! "request_id"
  = Some (JStr "1700000000000") ∧
  contextvars
    (LoggingMiddleware_dispatch sample_request answering fresh_world).2
    !! "request_id"
  = Some (JStr "1700000000.0").
Proof. vm_compute. repeat split. Qed.

(** C6 at a downstream stage that raises a [KeyError], from a world with
    empty metrics. *)
Lemma one_count_and_observation_unless_uncaught_witness :
  failing sample_request (LoggingMiddleware_call_world sample_request fresh_world)
    = (Raised (failure_of (OtherClass "KeyError") "'table'"),
       LoggingMiddleware_call_world sample_request fresh_world) ∧
  total_count (LoggingMiddleware_dispatch sample_request failing fresh_world).2
    = 1%nat ∧
  total_observations
    (LoggingMiddleware_dispatch sample_request failing fresh_world).2
    = 1%nat.
Proof.
  split; [reflexivity|].
  exact (proj2 (proj2 (proj2 (proj2
    (one_count_and_observation_unless_uncaught sample_request failing
       fresh_world _ _ eq_refl))))).
Defined.

(** C6 as the specification words it fails: when the downstream stage is
    cancelled, the call ends with no increment and no observation. *)
Lemma cancelled_request_is_not_counted :
  (LoggingMiddleware_dispatch sample_request cancelled fresh_world).1
    = RaisedBase CancelledError ∧
  total_count (LoggingMiddleware_dispatch sample_request cancelled fresh_world).2
    = 0%nat ∧
  total_observations
    (LoggingMiddleware_dispatch sample_request cancelled fresh_world).2
    = 0%nat.
Proof. vm_compute. repeat split. Qed.

(** C7 at a downstream stage that raises a [KeyError]. *)
Lemma exception_counted_as_500_and_reraised_witness :
  raised (failing sample_request
            (LoggingMiddleware_call_world sample_request fresh_world))
    = Some (inl (failure_of (OtherClass "KeyError") "'table'")) ∧
  raised (LoggingMiddleware_dispatch sample_request failing fresh_world)
    = Some (inl (failure_of (OtherClass "KeyError") "'table'")).
Proof.
  split; [reflexivity|].
  exact (proj1
    (exception_counted_as_500_and_reraised sample_request failing fresh_world
       _ eq_refl)).
Defined.

(** C7 as the specification words it fails: when the downstream stage is
    cancelled, the counter child of status 500 is not incremented and
    nothing is logged after "Request started". *)
Lemma cancelled_request_is_not_counted_as_500 :
  raised (LoggingMiddleware_dispatch sample_request cancelled fresh_world)
    = Some (inr CancelledError) ∧
  count_of
    (REQUEST_COUNT
       (LoggingMiddleware_dispatch sample_request cancelled fresh_world).2)
    ("GET", "/query", 500)
    = 0%nat ∧
  map log_event
    (log (LoggingMiddleware_dispatch sample_request cancelled fresh_world).2)
    = ["Request started"].
Proof. vm_compute. repeat split. Qed.

(** C9 at a downstream stage that answers [sample_response]. *)
Lemma response_returned_unchanged_witness :
  answering sample_request (LoggingMiddleware_call_world sample_request fresh_world)
    = (Returned sample_response,
       LoggingMiddleware_call_world sample_request fresh_world) ∧
  returned (LoggingMiddleware_dispatch sample_request answering fresh_world)
    = Some sample_response.
Proof.
  split; [reflexivity|].
  exact (proj1
    (response_returned_unchanged sample_request answering fresh_world
       _ _ eq_refl)).
Defined.

(** ** More about the error handlers *)

(** Looking a class up in the dict [register_error_handlers] leaves. *)
Ltac lookup_registered :=
  cbn [register_error_handlers exception_handlers app_without_handlers debug];
  rewrite ?lookup_insert_eq;
  repeat (rewrite lookup_insert_ne by discriminate; rewrite ?lookup_insert_eq).

Section MoreHandlerProperties.

Context {F : Type} `{PyFloat F}.

Implicit Types (app : FastAPI F) (request : Request) (exc : Exc) (w : World F).


(** X2: the eight handlers after the HTTP and the validation one log the
    failure's message under "error".  That includes the catch-all handler
    in both modes: its disclosure guard covers the response only, and with
    debug mode off the message is still in the log. *)
Theorem message_is_logged_in_both_modes (app_debug : bool) request exc w :
  Forall (λ entry : Level * (Request → Exc → M F Response),
            ∃ record,
              log (entry.2 request exc w).2 = log w ++ [record] ∧
              dict_get "error" (log_kwargs record) = Some (JStr (exc_str exc)))
         (drop 2 (handlers_with_levels app_debug)) ∧
  last (handlers_with_levels app_debug)
    = Some (ERROR_WITH_TRACE,
            general_exception_handler app_debug : Request → Exc → M F Response).
Proof.
  split; [|reflexivity].
  unfold handlers_with_levels. cbn [drop].
  repeat (apply Forall_cons; split; [eexists; split; reflexivity|]).
  constructor.
Qed.

(** X3: [register_error_handlers] replaces whatever handler the
    application had for one of the ten classes, so that what is registered
    for them does not depend on the handlers the application had before,
    and keeps the handlers of every other class. *)
Theorem register_replaces_ten_keeps_others app (cls : ExcClass) :
  exception_handlers (register_error_handlers app) !! cls
  = if decide (cls ∈ specific_classes ++ [Exception])
    then exception_handlers
           (register_error_handlers (app_without_handlers (debug app))) !! cls
    else exception_handlers app !! cls.
Proof.
  destruct (decide (cls ∈ specific_classes ++ [Exception])) as [Hin|Hout].
  - apply list_elem_of_In in Hin. simpl in Hin.
    destruct Hin as [<-|[<-|[<-|[<-|[<-|[<-|[<-|[<-|[<-|[<-|[]]]]]]]]]]];
      by lookup_registered.
  - destruct cls; try (exfalso; apply Hout; simpl; by repeat constructor).
    by lookup_registered.
Qed.

(** X4: registering the handlers twice is the same as registering them
    once. *)
Theorem register_error_handlers_idempotent app :
  register_error_handlers (register_error_handlers app)
  = register_error_handlers app.
Proof.
  unfold register_error_handlers. cbn [debug exception_handlers].
  f_equal. apply map_eq. intros cls.
  destruct cls; by lookup_registered.
Qed.


(** X7: the details of the validation handler have one entry per field
    error, each with exactly the keys "location", "message" and "type";
    without field errors the body still has "details", as an empty list. *)
Theorem details_one_entry_per_error request exc w :
  ∃ details,
    body_field "details" (validation_exception_handler request exc w)
      = Some (JList details) ∧
    length details = length (exc_errors exc) ∧
    Forall (λ entry, json_keys entry = ["location"; "message"; "type"]) details.
Proof.
  exists (map spec_detail_entry (exc_errors exc)). split; [|split].
  - unfold validation_exception_handler, body_field, returned. cbn.
    by rewrite fold_append_error_detail.
  - apply length_map.
  - apply Forall_forall. intros entry Hin.
    apply list_elem_of_fmap in Hin as [error [-> _]]. reflexivity.
Qed.

(** X8: the "location" of a detail does not determine the location path: a
    path of two names gives the same entry as the single name made of them
    around " -> ", and an index gives the same entry as the name made of
    its digits. *)
Theorem location_is_ambiguous (error_details : list Json) (a b msg type : string)
  (i : Z) :
  append_error_detail error_details
    {| err_loc := [LocName a; LocName b]; err_msg := msg; err_type := type |}
  = append_error_detail error_details
      {| err_loc := [LocName (a +:+ " -> " +:+ b)]; err_msg := msg;
         err_type := type |} ∧
  append_error_detail error_details
    {| err_loc := [LocIndex i]; err_msg := msg; err_type := type |}
  = append_error_detail error_details
      {| err_loc := [LocName (pretty i)]; err_msg := msg; err_type := type |}.
Proof. split; reflexivity. Qed.

End MoreHandlerProperties.

(** ** More about the middlewares *)

Section MoreMiddlewareProperties.

Context {F : Type} `{PyFloat F}.

Implicit Types (request : Request) (call_next : Request → M F Response).
Implicit Types (w : World F) (response : Response) (e : Exc).

(** The world [RequestLoggingContextMiddleware.dispatch] leaves when the
    downstream stage returns. *)
Lemma RequestLoggingContextMiddleware_dispatch_returned request call_next w
  response w1 :
  call_next request (RequestLoggingContextMiddleware_call_world request w)
    = (Returned response, w1) →
  RequestLoggingContextMiddleware_dispatch request call_next w
  = (Returned response,
     {| clock := clock w1; ticks := ticks w1;
        contextvars :=
          <["status_code" := JInt (status_code response)]> (contextvars w1);
        log := log w1;
        REQUEST_COUNT := REQUEST_COUNT w1;
        REQUEST_LATENCY := REQUEST_LATENCY w1 |}).
Proof.
  unfold RequestLoggingContextMiddleware_call_world,
    RequestLoggingContextMiddleware_entry,
    RequestLoggingContextMiddleware_dispatch.
  run_M. intros ->. reflexivity.
Qed.

(** And when it raises. *)
Lemma RequestLoggingContextMiddleware_dispatch_raised request call_next w e w1 :
  call_next request (RequestLoggingContextMiddleware_call_world request w)
    = (Raised e, w1) →
  RequestLoggingContextMiddleware_dispatch request call_next w = (Raised e, w1).
Proof.
  unfold RequestLoggingContextMiddleware_call_world,
    RequestLoggingContextMiddleware_entry,
    RequestLoggingContextMiddleware_dispatch.
  run_M. intros ->. reflexivity.
Qed.

(** And when it is left by a raise that is not an instance of
    [Exception]. *)
Lemma RequestLoggingContextMiddleware_dispatch_raised_base request call_next w
  (b : BaseExc) w1 :
  call_next request (RequestLoggingContextMiddleware_call_world request w)
    = (RaisedBase b, w1) →
  RequestLoggingContextMiddleware_dispatch request call_next w
    = (RaisedBase b, w1).
Proof.
  unfold RequestLoggingContextMiddleware_call_world,
    RequestLoggingContextMiddleware_entry,
    RequestLoggingContextMiddleware_dispatch.
  run_M. intros ->. reflexivity.
Qed.

(** X9: the two records of [LoggingMiddleware.dispatch] bracket what the
    downstream stage logs: when the stage appends [downstream] to the log
    and returns, the log ends up as the earlier log, "Request started",
    [downstream], "Request completed".  The processing time of the last
    record, which is also the observation added to the histogram, runs
    from the clock reading taken after "Request started" was logged to the
    reading taken when the downstream stage has returned. *)
Theorem records_bracket_the_downstream_log request call_next w response w1
  (downstream : list LogRecord) :
  call_next request (LoggingMiddleware_call_world request w)
    = (Returned response, w1) →
  log w1 = log (LoggingMiddleware_call_world request w) ++ downstream →
  let w' := (LoggingMiddleware_dispatch request call_next w).2 in
  let labels := (method request, url_path request) in
  let process_time := float_sub (clock w1 (ticks w1)) (clock w (S (ticks w))) in
  log w'
    = log w ++ [request_started request] ++ downstream
        ++ [request_completed request response process_time] ∧
  observations_of (REQUEST_LATENCY w') labels
    = observations_of (REQUEST_LATENCY w1) labels ++ [process_time].
Proof.
  intros Hcall Hlog w' labels process_time. subst w'.
  rewrite (LoggingMiddleware_dispatch_returned _ _ _ _ _ Hcall). cbn [snd log].
  split.
  - rewrite Hlog.
    change (log (LoggingMiddleware_call_world request w))
      with (log w ++ [request_started request]).
    by rewrite <- !app_assoc.
  - cbn [REQUEST_LATENCY]. unfold observations_of at 1.
    by rewrite lookup_insert_eq.
Qed.

(** X10: when the downstream stage returns or raises an instance of
    [Exception], a call of [LoggingMiddleware.dispatch] changes one child
    of each metric and no other: the counter child of (method, path,
    status) goes up by one, the histogram child of (method, path) gets the
    processing time at its end, and the children of all other labels are as
    the downstream stage left them.  When the downstream stage is left by
    another raise, no child of either metric changes. *)
Theorem other_children_untouched request call_next w
  (outcome : Outcome Response) w1
  (count_labels : string * string * Z) (latency_labels : string * string) :
  call_next request (LoggingMiddleware_call_world request w) = (outcome, w1) →
  let w' := (LoggingMiddleware_dispatch request call_next w).2 in
  let labels := (method request, url_path request) in
  let process_time := float_sub (clock w1 (ticks w1)) (clock w (S (ticks w))) in
  match status_label outcome with
  | Some status =>
      count_of (REQUEST_COUNT w') count_labels
        = (if decide (count_labels = (labels, status))
           then S (count_of (REQUEST_COUNT w1) count_labels)
           else count_of (REQUEST_COUNT w1) count_labels) ∧
      observations_of (REQUEST_LATENCY w') latency_labels
        = (if decide (latency_labels = labels)
           then observations_of (REQUEST_LATENCY w1) latency_labels
                  ++ [process_time]
           else observations_of (REQUEST_LATENCY w1) latency_labels)
  | None =>
      count_of (REQUEST_COUNT w') count_labels
        = count_of (REQUEST_COUNT w1) count_labels ∧
      observations_of (REQUEST_LATENCY w') latency_labels
        = observations_of (REQUEST_LATENCY w1) latency_labels
  end.
Proof.
  intros Hcall w' labels process_time. subst w'.
  assert (∀ wf status,
    REQUEST_COUNT wf
      = <[(labels, status) := S (count_of (REQUEST_COUNT w1) (labels, status))]>
          (REQUEST_COUNT w1) →
    REQUEST_LATENCY wf
      = <[labels := observations_of (REQUEST_LATENCY w1) labels ++ [process_time]]>
          (REQUEST_LATENCY w1) →
    count_of (REQUEST_COUNT wf) count_labels
      = (if decide (count_labels = (labels, status))
         then S (count_of (REQUEST_COUNT w1) count_labels)
         else count_of (REQUEST_COUNT w1) count_labels) ∧
    observations_of (REQUEST_LATENCY wf) latency_labels
      = (if decide (latency_labels = labels)
         then observations_of (REQUEST_LATENCY w1) latency_labels
                ++ [process_time]
         else observations_of (REQUEST_LATENCY w1) latency_labels)) as Hframe.
  { intros wf status Hc Hl. split.
    - unfold count_of at 1. rewrite Hc.
      destruct (decide (count_labels = (labels, status))) as [->|Hne].
      + by rewrite lookup_insert_eq.
      + by rewrite lookup_insert_ne.
    - unfold observations_of at 1. rewrite Hl.
      destruct (decide (latency_labels = labels)) as [->|Hne].
      + by rewrite lookup_insert_eq.
      + by rewrite lookup_insert_ne. }
  destruct outcome as [response|e|b]; cbn [status_label].
  - rewrite (LoggingMiddleware_dispatch_returned _ _ _ _ _ Hcall). cbn [snd].
    apply Hframe; reflexivity.
  - rewrite (LoggingMiddleware_dispatch_raised _ _ _ _ _ Hcall). cbn [snd].
    apply Hframe; reflexivity.
  - by rewrite (LoggingMiddleware_dispatch_raised_base _ _ _ _ _ Hcall).
Qed.

(** X11: [RequestLoggingContextMiddleware.dispatch] hands on what the
    downstream stage returned or raised, has no [try] of its own, and
    touches neither the log nor the metrics: before the call it only takes
    one clock reading and resets the context, after the call the log, the
    metrics and the clock are as the downstream stage left them. *)
Theorem context_middleware_is_transparent request call_next w :
  let w0 := RequestLoggingContextMiddleware_call_world request w in
  let r := RequestLoggingContextMiddleware_dispatch request call_next w in
  (log w0 = log w ∧ REQUEST_COUNT w0 = REQUEST_COUNT w ∧
   REQUEST_LATENCY w0 = REQUEST_LATENCY w ∧ ticks w0 = S (ticks w)) ∧
  r.1 = (call_next request w0).1 ∧
  log r.2 = log (call_next request w0).2 ∧
  REQUEST_COUNT r.2 = REQUEST_COUNT (call_next request w0).2 ∧
  REQUEST_LATENCY r.2 = REQUEST_LATENCY (call_next request w0).2 ∧
  ticks r.2 = ticks (call_next request w0).2.
Proof.
  intros w0 r. subst w0 r. split; [repeat split|].
  destruct (call_next request (RequestLoggingContextMiddleware_call_world request w))
    as [[response|e|b] w1] eqn:Hcall.
  - by rewrite (RequestLoggingContextMiddleware_dispatch_returned _ _ _ _ _ Hcall).
  - by rewrite (RequestLoggingContextMiddleware_dispatch_raised _ _ _ _ _ Hcall).
  - by rewrite (RequestLoggingContextMiddleware_dispatch_raised_base
                  _ _ _ _ _ Hcall).
Qed.

(** X12: with both middlewares installed by [setup_middleware], the
    application runs in a context of exactly request_id, method, path and
    client_ip, whatever was bound before the request.  The request_id that
    [LoggingMiddleware] bound, under which "Request started" was logged, is
    gone: the application sees the millisecond id that
    [RequestLoggingContextMiddleware] made from a later clock reading. *)
Theorem stack_context_at_the_application request w :
  contextvars (LoggingMiddleware_call_world request w) !! "request_id"
    = Some (JStr (float_str (clock w (ticks w)))) ∧
  contextvars (stack_call_world request w)
    = <["client_ip" := json_of_option (client request)]>
        (<["path" := JStr (url_path request)]>
          (<["method" := JStr (method request)]>
            (<["request_id" :=
                 JStr (float_str_millis (clock w (S (S (ticks w)))))]> ∅))) ∧
  log (stack_call_world request w) = log w ++ [request_started request] ∧
  ticks (stack_call_world request w) = S (S (S (ticks w))).
Proof.
  split; [|repeat split].
  change (contextvars (LoggingMiddleware_call_world request w))
    with (<["request_id" := JStr (float_str (clock w (ticks w)))]>
            (contextvars w)).
  apply lookup_insert_eq.
Qed.

End MoreMiddlewareProperties.

(** ** setup_logging *)

(** Two states of the logging libraries with the same fields are equal. *)
Lemma Logging_eq (a b : Logging) :
  root_handlers a = root_handlers b →
  root_level a = root_level b →
  logger_levels a = logger_levels b →
  structlog_is_configured a = structlog_is_configured b →
  structlog_processors a = structlog_processors b →
  structlog_logger_factory a = structlog_logger_factory b →
  structlog_wrapper_class a = structlog_wrapper_class b →
  structlog_cache_logger_on_first_use a = structlog_cache_logger_on_first_use b →
  a = b.
Proof. destruct a, b; simpl; intros; by subst. Qed.

(** The levels of the named loggers after [setup_logging]: the loop and
    the last [setLevel], on top of the levels there were. *)
Lemma setup_logging_logger_levels (debug_mode : bool) (st : Logging) :
  logger_levels (setup_logging debug_mode st)
  = let log_level := if debug_mode then logging_DEBUG else logging_INFO in
    <["py4j" := logging_WARNING]>
      (<["trino" := log_level]>
        (<["py4j" := log_level]>
          (<["asyncpg" := log_level]>
            (<["fastapi" := log_level]>
              (<["uvicorn.error" := log_level]>
                (<["uvicorn.access" := log_level]>
                  (<["uvicorn" := log_level]> (logger_levels st)))))))).
Proof.
  unfold setup_logging, logging_basicConfig.
  by destruct (root_handlers st).
Qed.

(** X14: after [setup_logging], whatever the debug flag, the logger "py4j"
    is at WARNING, although the loop before sets it to the general level;
    the six other loggers of the loop are at DEBUG in debug mode and at
    INFO otherwise; every other logger keeps the level it had. *)
Theorem setup_logging_levels (debug_mode : bool) (st : Logging) (name : string) :
  logger_levels (setup_logging debug_mode st) !! name
  = if decide (name = "py4j") then Some logging_WARNING
    else if decide (name ∈ library_loggers)
         then Some (if debug_mode then logging_DEBUG else logging_INFO)
         else logger_levels st !! name.
Proof.
  rewrite setup_logging_logger_levels. cbv zeta.
  destruct (decide (name = "py4j")) as [->|Hpy4j].
  { by rewrite lookup_insert_eq. }
  rewrite lookup_insert_ne by done.
  destruct (decide (name ∈ library_loggers)) as [Hin|Hout].
  - apply list_elem_of_In in Hin. simpl in Hin.
    destruct Hin as [<-|[<-|[<-|[<-|[<-|[<-|[<-|[]]]]]]]];
      try done;
      repeat (rewrite lookup_insert_ne by discriminate);
      by rewrite lookup_insert_eq.
  - assert (∀ other, other ∈ library_loggers → other ≠ name) as Hne.
    { intros other Hother ->. by apply Hout. }
    unfold library_loggers in Hne.
    repeat (rewrite lookup_insert_ne; [|apply Hne; by repeat constructor]).
    done.
Qed.

(** X15: [setup_logging] configures the root logger only when it has no
    handler yet: then the root logger gets one handler, on stdout with the
    bare-message format, and the general level.  When the root logger has a
    handler already, its handlers and its level stay as they are, while
    structlog is configured all the same, with [merge_contextvars] as the
    first processor and the JSON renderer as the last. *)
Theorem setup_logging_root_logger (debug_mode : bool) (st : Logging) :
  root_handlers (setup_logging debug_mode st)
    = match root_handlers st with
      | [] => [{| handler_stream := sys_stdout;
                  handler_format := "%(message)s" |}]
      | _ :: _ => root_handlers st
      end ∧
  root_level (setup_logging debug_mode st)
    = match root_handlers st with
      | [] => if debug_mode then logging_DEBUG else logging_INFO
      | _ :: _ => root_level st
      end ∧
  structlog_is_configured (setup_logging debug_mode st) = true ∧
  head (structlog_processors (setup_logging debug_mode st))
    = Some merge_contextvars ∧
  last (structlog_processors (setup_logging debug_mode st))
    = Some (JSONRenderer true).
Proof.
  unfold setup_logging, logging_basicConfig.
  destruct (root_handlers st) as [|handler handlers] eqn:Hroot;
    cbn; rewrite ?Hroot; repeat split; try done.
Qed.

(** X16: calling [setup_logging] again, with the same or another debug
    flag, adds no second handler to the root logger and does not change its
    level, so the root logger keeps the level of the first call; the named
    loggers follow the last call.  With the same flag the second call
    changes nothing. *)
Theorem setup_logging_again (first second : bool) (st : Logging) :
  let once := setup_logging first st in
  let twice := setup_logging second once in
  root_handlers twice = root_handlers once ∧
  root_level twice = root_level once ∧
  logger_levels twice = logger_levels (setup_logging second st) ∧
  setup_logging first once = once.
Proof.
  intros once twice. subst once twice.
  assert (∀ flag, root_handlers (setup_logging flag st) ≠ []) as Hconfigured.
  { intros flag. unfold setup_logging, logging_basicConfig.
    destruct (root_handlers st) eqn:Hroot; cbn; by rewrite ?Hroot. }
  assert (∀ flag flag',
    root_handlers (setup_logging flag' (setup_logging flag st))
      = root_handlers (setup_logging flag st) ∧
    root_level (setup_logging flag' (setup_logging flag st))
      = root_level (setup_logging flag st)) as Hroot.
  { intros flag flag'. specialize (Hconfigured flag).
    generalize dependent (setup_logging flag st). intros configured Hhandlers.
    unfold setup_logging, logging_basicConfig.
    destruct (root_handlers configured) eqn:Hroot; [done|].
    cbn. by rewrite Hroot. }
  assert (∀ flag flag',
    logger_levels (setup_logging flag' (setup_logging flag st))
    = logger_levels (setup_logging flag' st)) as Hlevels.
  { intros flag flag'. apply map_eq. intros name.
    rewrite !setup_logging_levels. by repeat case_decide. }
  split; [apply Hroot|]. split; [apply Hroot|]. split; [apply Hlevels|].
  apply Logging_eq; try apply Hroot; try apply Hlevels.
  all: unfold setup_logging, logging_basicConfig;
    by destruct (root_handlers _).
Qed.

(** ** Instances of the properties above *)

(** X9 at a downstream stage that logs "Query executed". *)
Lemma records_bracket_the_downstream_log_witness :
  map log_event
    (log (LoggingMiddleware_dispatch sample_request answering_with_log
            fresh_world).2)
  = ["Request started"; "Query executed"; "Request completed"].
Proof.
  rewrite (proj1 (records_bracket_the_downstream_log sample_request
                    answering_with_log fresh_world _ _
                    [{| log_level := INFO; log_event := "Query executed";
                        log_kwargs := [("rows", JInt 0)] |}]
                    eq_refl eq_refl)).
  reflexivity.
Defined.

(** X10 at a downstream stage that raises: the child of status 500 is at
    one, the child of status 200 stays at zero. *)
Lemma other_children_untouched_witness :
  count_of
    (REQUEST_COUNT (LoggingMiddleware_dispatch sample_request failing fresh_world).2)
    ("GET", "/query", 500) = 1%nat ∧
  count_of
    (REQUEST_COUNT (LoggingMiddleware_dispatch sample_request failing fresh_world).2)
    ("GET", "/query", 200) = 0%nat.
Proof.
  split.
  - exact (proj1 (other_children_untouched sample_request failing fresh_world
                    _ _ ("GET", "/query", 500) ("GET", "/query") eq_refl)).
  - exact (proj1 (other_children_untouched sample_request failing fresh_world
                    _ _ ("GET", "/query", 200) ("GET", "/query") eq_refl)).
Defined.

